(** * Simple multi-agent travel planner: the four-stage pipeline of [a.py]

    A shallow embedding of the planner, search, budget and summarizer agents
    and of the [create_plan] endpoint that chains them.  Python integers are
    [Z], strings are [string], the float rating is a binary64 [float].  The
    process state the agents touch (the [METRICS] dict, the [random] module's
    generator, the uuid entropy, the logger and the clock) is threaded
    explicitly through a state-and-exception monad. *)

From Stdlib Require Import ZArith List String Ascii Bool Lia.
From Stdlib Require Import DecimalString.
From Stdlib Require Import Floats.
Import ListNotations.
Open Scope string_scope.
Open Scope Z_scope.

(** ** Process state *)

(** [METRICS = {"plans_created": 0, "agent_calls": 0}]: a dict whose two keys
    are fixed at module load and only ever read and re-assigned by constant
    key, hence a record of two counters. *)
Record Metrics : Type := mkMetrics {
  plans_created : Z;
  agent_calls : Z
}.

Definition METRICS_init : Metrics := mkMetrics 0 0.

(** The state of the process as far as the pipeline can observe it.  The
    Mersenne Twister behind [random] is a tape of raw draws with a cursor, the
    entropy behind [uuid.uuid4] a tape of identifiers, the logger the list of
    records emitted so far (most recent last). *)
Record World : Type := mkWorld {
  METRICS : Metrics;
  entropy : nat -> Z;
  drawn : nat;
  uuids : nat -> string;
  issued : nat;
  logged : list string;
  clock : string
}.

Inductive PyErr : Type :=
| ValueError
| IndexError
| ZeroDivisionError.

(** ** The monad of Python statements: state plus exceptions *)

Module Py.

Definition t (A : Type) : Type := World -> World * (PyErr + A).

Definition ret {A} (a : A) : t A := fun w => (w, inr a).

Definition raise {A} (e : PyErr) : t A := fun w => (w, inl e).

Definition bind {A B} (c : t A) (k : A -> t B) : t B :=
  fun w =>
    match c w with
    | (w', inr a) => k a w'
    | (w', inl e) => (w', inl e)
    end.

Definition get : t World := fun w => (w, inr w).

(** Monadic [for x in xs: acc = body x acc]. *)
Fixpoint for_in {A S} (xs : list A) (body : A -> S -> t S) (s : S) : t S :=
  match xs with
  | [] => ret s
  | x :: xs' => bind (body x s) (for_in xs' body)
  end.

End Py.

Declare Scope py_scope.
Delimit Scope py_scope with py.
Notation "x <- c ;; k" := (Py.bind c (fun x => k))
  (at level 61, c at next level, right associativity) : py_scope.
Notation "c ;;; k" := (Py.bind c (fun _ => k))
  (at level 61, right associativity) : py_scope.
Open Scope py_scope.

(** A run that returned normally, with its final state. *)
Definition returns {A} (c : Py.t A) (w : World) (a : A) (w' : World) : Prop :=
  c w = (w', inr a).

(** ** Builtins and library calls used by the agents *)

(** [str(n)] for an int. *)
Definition str_int (n : Z) : string :=
  NilZero.string_of_int (Z.to_int n).

(** [range(n)]: empty when [n <= 0]. *)
Definition py_range (n : Z) : list Z :=
  map Z.of_nat (seq 0 (Z.to_nat n)).

(** [len(xs)]. *)
Definition len {A} (xs : list A) : Z := Z.of_nat (List.length xs).

(** [a % b] on ints: the sign follows the divisor; a zero divisor raises. *)
Definition py_mod (a b : Z) : Py.t Z :=
  if b =? 0 then Py.raise ZeroDivisionError else Py.ret (a mod b).

(** [xs[i]]: a negative index counts from the end; out of range raises. *)
Definition py_getitem {A} (xs : list A) (i : Z) : Py.t A :=
  let j := if i <? 0 then i + len xs else i in
  if j <? 0 then Py.raise IndexError
  else match nth_error xs (Z.to_nat j) with
       | Some x => Py.ret x
       | None => Py.raise IndexError
       end.

(** [min(xs)] and [min(xs, default=d)]: without a default an empty iterable
    raises [ValueError]. *)
Definition py_min (xs : list Z) (default : option Z) : Py.t Z :=
  match xs with
  | x :: xs' => Py.ret (fold_left Z.min xs' x)
  | [] => match default with
          | Some d => Py.ret d
          | None => Py.raise ValueError
          end
  end.

(** [max(a, b)] on ints. *)
Definition py_max (a b : Z) : Z := Z.max a b.

(** [METRICS[key] += 1] for the two keys. *)
Definition incr_agent_calls : Py.t unit :=
  fun w =>
    let m := METRICS w in
    (mkWorld (mkMetrics (plans_created m) (agent_calls m + 1))
             (entropy w) (drawn w) (uuids w) (issued w) (logged w) (clock w),
     inr tt).

Definition incr_plans_created : Py.t unit :=
  fun w =>
    let m := METRICS w in
    (mkWorld (mkMetrics (plans_created m + 1) (agent_calls m))
             (entropy w) (drawn w) (uuids w) (issued w) (logged w) (clock w),
     inr tt).

(** [logger.info(msg)]. *)
Definition logger_info (msg : string) : Py.t unit :=
  fun w =>
    (mkWorld (METRICS w) (entropy w) (drawn w) (uuids w) (issued w)
             (logged w ++ [msg])%list (clock w),
     inr tt).

(** [await asyncio.sleep(delay)]: within one request the stages run strictly
    one after the other, so the suspension leaves the state as it is.  The
    delay is kept in milliseconds. *)
Definition asyncio_sleep (ms : Z) : Py.t unit := Py.ret tt.

(** The next raw draw of the generator. *)
Definition next_raw : Py.t Z :=
  fun w =>
    (mkWorld (METRICS w) (entropy w) (S (drawn w)) (uuids w) (issued w)
             (logged w) (clock w),
     inr (entropy w (drawn w))).

(** [random.randint(a, b)]: an int in [[a, b]]; an empty range raises. *)
Definition randint (a b : Z) : Py.t Z :=
  if b <? a then Py.raise ValueError
  else raw <- next_raw ;; Py.ret (a + raw mod (b - a + 1)).

(** [str(uuid.uuid4())]. *)
Definition uuid4_str : Py.t string :=
  fun w =>
    (mkWorld (METRICS w) (entropy w) (drawn w) (uuids w) (S (issued w))
             (logged w) (clock w),
     inr (uuids w (issued w))).

(** [time.strftime("%Y-%m-%d %H:%M:%S", time.localtime())]. *)
Definition strftime_now : Py.t string :=
  fun w => (w, inr (clock w)).

(** ** Binary64 arithmetic used for the hotel rating *)

(** The double nearest to [m * 2^e] (ties to even). *)
Definition float_of_dyadic (m e : Z) : float :=
  SF2Prim (binary_normalize prec emax m e false).

(** The double nearest to [t / p], for [0 < t] and [0 < p], with sign [s]. *)
Definition float_of_ratio (s : bool) (t p : Z) : float :=
  let '(q, e, l) := SFdiv_core_binary prec emax t 0 p 0 in
  SF2Prim (binary_round_aux prec emax s q e l).

(** [random.random()]: a 53-bit integer scaled by [2^-53], so a double in
    [[0, 1)]. *)
Definition random_random : Py.t float :=
  raw <- next_raw ;; Py.ret (float_of_dyadic (raw mod 2 ^ 53) (-53)).

(** Nearest integer to [n / d] for [0 < d], ties to the even one. *)
Definition round_half_even (n d : Z) : Z :=
  let q := n / d in
  let r := n mod d in
  if 2 * r <? d then q
  else if d <? 2 * r then q + 1
  else if Z.even q then q else q + 1.

(** [round(x, ndigits)] for a float and [ndigits >= 0]: the exact value of
    [x] is rounded half-even to [ndigits] decimals, and the decimal obtained
    is converted back to the nearest double.  Zeros, infinities and NaN are
    returned unchanged; a zero result keeps the sign of [x]. *)
Definition py_round (x : float) (ndigits : nat) : float :=
  match Prim2SF x with
  | S754_finite s m e =>
      let p := 10 ^ Z.of_nat ndigits in
      let t := if 0 <=? e then Zpos m * 2 ^ e * p
               else round_half_even (Zpos m * p) (2 ^ (- e)) in
      if t =? 0 then (if s then (- 0)%float else 0%float)
      else float_of_ratio s t p
  | _ => x
  end.

(** ** Request and response models *)

Module PlanRequest.
(** [class PlanRequest(BaseModel)]: four typed fields, no validator. *)
Record t : Type := mk {
  from_city : string;
  to_city : string;
  budget : Z;
  days : Z
}.
End PlanRequest.

Module Tasks.
Record t : Type := mk {
  flight_query : string;
  hotel_query : string;
  places_query : string
}.
End Tasks.

Module PlannerResult.
Record t : Type := mk { tasks : Tasks.t }.
End PlannerResult.

Module Flight.
Record t : Type := mk {
  airline : string;
  price : Z;
  depart : string;
  arrive : string
}.
End Flight.

Module Hotel.
Record t : Type := mk {
  name : string;
  price_per_night : Z;
  rating : float
}.
End Hotel.

Module SearchResult.
Record t : Type := mk {
  flights : list Flight.t;
  hotels : list Hotel.t;
  places : list string
}.
End SearchResult.

Module Breakdown.
Record t : Type := mk {
  flight : Z;
  hotel_per_night : Z;
  food : Z;
  transport : Z
}.
End Breakdown.

Module BudgetResult.
Record t : Type := mk {
  total : Z;
  status : string;
  breakdown : Breakdown.t
}.
End BudgetResult.

Module Summary.
Record t : Type := mk {
  plan_id : string;
  from : string;
  to : string;
  flights : list Flight.t;
  hotels : list Hotel.t;
  itinerary : list string;
  budget : BudgetResult.t
}.
End Summary.

Module Raw.
Record t : Type := mk {
  planner : PlannerResult.t;
  search : SearchResult.t;
  budget : BudgetResult.t
}.
End Raw.

Module Response.
(** [metrics] is the [METRICS] dict itself, read when the response is
    returned. *)
Record t : Type := mk {
  summary : Summary.t;
  raw : Raw.t;
  metrics : Metrics;
  generated_at : string
}.
End Response.

(** ** The agents *)

Definition planner_agent (req : PlanRequest.t) : Py.t PlannerResult.t :=
  incr_agent_calls ;;;
  logger_info ("[Planner] Creating tasks for trip " ++ PlanRequest.from_city req
               ++ " -> " ++ PlanRequest.to_city req) ;;;
  let tasks :=
    Tasks.mk
      ("cheap flights from " ++ PlanRequest.from_city req ++ " to "
                             ++ PlanRequest.to_city req)
      ("budget hotels in " ++ PlanRequest.to_city req)
      ("top attractions in " ++ PlanRequest.to_city req) in
  asyncio_sleep 50 ;;;
  Py.ret (PlannerResult.mk tasks).

Definition search_agent (tasks : Tasks.t) : Py.t SearchResult.t :=
  incr_agent_calls ;;;
  logger_info "[Search] Running fake searches for tasks" ;;;
  asyncio_sleep 120 ;;;
  p1 <- randint 4000 12000 ;;
  p2 <- randint 4500 14000 ;;
  let flights :=
    [ Flight.mk "AirFast" p1 "06:00" "09:00";
      Flight.mk "SkyGo" p2 "12:00" "15:00" ] in
  n1 <- randint 800 2500 ;;
  r1 <- random_random ;;
  n2 <- randint 1500 4000 ;;
  r2 <- random_random ;;
  let hotels :=
    [ Hotel.mk "Budget Inn" n1 (py_round (3 + r1)%float 1);
      Hotel.mk "Comfort Stay" n2 (py_round (3 + r2)%float 1) ] in
  let places :=
    map (fun i => Tasks.places_query tasks ++ " - " ++ str_int (i + 1))
        (py_range 5) in
  Py.ret (SearchResult.mk flights hotels places).

Definition budget_agent (search_result : SearchResult.t) (req : PlanRequest.t)
  : Py.t BudgetResult.t :=
  incr_agent_calls ;;;
  logger_info "[Budget] Calculating budget" ;;;
  let days := py_max 1 (PlanRequest.days req) in
  cheapest_flight <-
    py_min (map Flight.price (SearchResult.flights search_result)) (Some 0) ;;
  cheapest_hotel <-
    py_min (map Hotel.price_per_night (SearchResult.hotels search_result))
           (Some 0) ;;
  let food := 400 * days in
  let transport := 250 * days in
  let total := cheapest_flight + (cheapest_hotel * days) + food + transport in
  let status := if total <=? PlanRequest.budget req
                then "within_budget" else "over_budget" in
  asyncio_sleep 20 ;;;
  Py.ret (BudgetResult.mk total status
            (Breakdown.mk cheapest_flight cheapest_hotel food transport)).

(** One turn of the summarizer's loop: the conditional expression tests
    [places] first and only then indexes it. *)
Definition itinerary_entry (places : list string) (d : Z) : Py.t string :=
  what <- match places with
          | [] => Py.ret "Local exploration"
          | _ :: _ => i <- py_mod d (len places) ;; py_getitem places i
          end ;;
  Py.ret ("Day " ++ str_int (d + 1) ++ ": " ++ what).

Definition summarizer_agent (req : PlanRequest.t)
    (search_result : SearchResult.t) (budget_result : BudgetResult.t)
  : Py.t Summary.t :=
  incr_agent_calls ;;;
  logger_info "[Summarizer] Creating final plan summary" ;;;
  plan_id <- uuid4_str ;;
  (* search_result.get("places", []): the key is always there *)
  let places := SearchResult.places search_result in
  itinerary <-
    Py.for_in (py_range (PlanRequest.days req))
      (fun d itinerary =>
         entry <- itinerary_entry places d ;; Py.ret (itinerary ++ [entry])%list)
      [] ;;
  asyncio_sleep 10 ;;;
  Py.ret (Summary.mk plan_id
            (PlanRequest.from_city req) (PlanRequest.to_city req)
            (SearchResult.flights search_result)
            (SearchResult.hotels search_result)
            itinerary budget_result).

(** ** The orchestration endpoint *)

Definition create_plan (req : PlanRequest.t) : Py.t Response.t :=
  incr_plans_created ;;;
  planner_res <- planner_agent req ;;
  search_res <- search_agent (PlannerResult.tasks planner_res) ;;
  budget_res <- budget_agent search_res req ;;
  summary <- summarizer_agent req search_res budget_res ;;
  w <- Py.get ;;
  generated_at <- strftime_now ;;
  Py.ret (Response.mk summary
            (Raw.mk planner_res search_res budget_res)
            (METRICS w) generated_at).

(** ** The health endpoint *)

Module Health.
Record t : Type := mk {
  status : string;
  metrics : Metrics
}.
End Health.

(** [health()]: the fixed status and the [METRICS] dict as it stands. *)
Definition health : Py.t Health.t :=
  w <- Py.get ;; Py.ret (Health.mk "ok" (METRICS w)).

(** * Reference definitions

    What each stage returns and the state it leaves, written as plain
    functions; the run lemmas below show that the agents compute them. *)

(** The state after an agent that only counts itself and logs [msg]. *)
Definition after_agent (msg : string) (w : World) : World :=
  mkWorld (mkMetrics (plans_created (METRICS w)) (agent_calls (METRICS w) + 1))
          (entropy w) (drawn w) (uuids w) (issued w)
          (logged w ++ [msg])%list (clock w).

(** The state after [search_agent]: one more agent call, six draws consumed,
    one log record. *)
Definition after_search (w : World) : World :=
  mkWorld (mkMetrics (plans_created (METRICS w)) (agent_calls (METRICS w) + 1))
          (entropy w) (6 + drawn w)%nat (uuids w) (issued w)
          (logged w ++ ["[Search] Running fake searches for tasks"])%list
          (clock w).

(** The state after [summarizer_agent]: one more agent call, one identifier
    issued, one log record. *)
Definition after_summarizer (w : World) : World :=
  mkWorld (mkMetrics (plans_created (METRICS w)) (agent_calls (METRICS w) + 1))
          (entropy w) (drawn w) (uuids w) (S (issued w))
          (logged w ++ ["[Summarizer] Creating final plan summary"])%list
          (clock w).

(** The state once [create_plan] has counted the plan. *)
Definition after_plan_counted (w : World) : World :=
  mkWorld (mkMetrics (plans_created (METRICS w) + 1) (agent_calls (METRICS w)))
          (entropy w) (drawn w) (uuids w) (issued w) (logged w) (clock w).

Definition planner_log (req : PlanRequest.t) : string :=
  "[Planner] Creating tasks for trip " ++ PlanRequest.from_city req
  ++ " -> " ++ PlanRequest.to_city req.

(** The three queries of the planner. *)
Definition planner_tasks (req : PlanRequest.t) : Tasks.t :=
  Tasks.mk
    ("cheap flights from " ++ PlanRequest.from_city req ++ " to "
                           ++ PlanRequest.to_city req)
    ("budget hotels in " ++ PlanRequest.to_city req)
    ("top attractions in " ++ PlanRequest.to_city req).

(** The rating computed from the raw draw [raw]. *)
Definition rating_of_raw (raw : Z) : float :=
  py_round (3 + float_of_dyadic (raw mod 2 ^ 53) (-53))%float 1.

Arguments rating_of_raw : simpl never.

(** The search result drawn in state [w]. *)
Definition search_result (tasks : Tasks.t) (w : World) : SearchResult.t :=
  let draw i := entropy w (i + drawn w)%nat in
  SearchResult.mk
    [ Flight.mk "AirFast" (4000 + draw 0%nat mod 8001) "06:00" "09:00";
      Flight.mk "SkyGo" (4500 + draw 1%nat mod 9501) "12:00" "15:00" ]
    [ Hotel.mk "Budget Inn" (800 + draw 2%nat mod 1701)
               (rating_of_raw (draw 3%nat));
      Hotel.mk "Comfort Stay" (1500 + draw 4%nat mod 2501)
               (rating_of_raw (draw 5%nat)) ]
    (map (fun i => Tasks.places_query tasks ++ " - " ++ i)
         ["1"; "2"; "3"; "4"; "5"]).

(** [m] is the least element of [xs]. *)
Definition is_minimum (xs : list Z) (m : Z) : Prop :=
  In m xs /\ Forall (fun x => m <= x) xs.

(** What [min(xs, default=0)] evaluates to. *)
Definition cheapest (xs : list Z) : Z :=
  match xs with
  | [] => 0
  | x :: xs' => fold_left Z.min xs' x
  end.

Definition budget_result (sr : SearchResult.t) (req : PlanRequest.t)
  : BudgetResult.t :=
  let days := Z.max 1 (PlanRequest.days req) in
  let f := cheapest (map Flight.price (SearchResult.flights sr)) in
  let h := cheapest (map Hotel.price_per_night (SearchResult.hotels sr)) in
  let total := f + h * days + 400 * days + 250 * days in
  BudgetResult.mk total
    (if total <=? PlanRequest.budget req then "within_budget" else "over_budget")
    (Breakdown.mk f h (400 * days) (250 * days)).

(** The place visited on day [d] (0-indexed): the places are reused
    cyclically; without places the day is spent exploring. *)
Definition place_of_day (places : list string) (d : Z) : string :=
  match places with
  | [] => "Local exploration"
  | _ :: _ => nth (Z.to_nat (d mod len places)) places ""
  end.

Definition entry_text (places : list string) (d : Z) : string :=
  "Day " ++ str_int (d + 1) ++ ": " ++ place_of_day places d.

Definition summary_result (req : PlanRequest.t) (sr : SearchResult.t)
    (br : BudgetResult.t) (w : World) : Summary.t :=
  Summary.mk (uuids w (issued w))
    (PlanRequest.from_city req) (PlanRequest.to_city req)
    (SearchResult.flights sr) (SearchResult.hotels sr)
    (map (entry_text (SearchResult.places sr)) (py_range (PlanRequest.days req)))
    br.

(** ** A concrete scenario

    Delhi to Goa, budget 20000, three days, flight prices 4000 and 5000,
    hotel prices 1000 and 1500. *)
Definition demo_request : PlanRequest.t :=
  PlanRequest.mk "Delhi" "Goa" 20000 3.

Definition demo_search : SearchResult.t :=
  SearchResult.mk
    [ Flight.mk "AirFast" 4000 "06:00" "09:00";
      Flight.mk "SkyGo" 5000 "12:00" "15:00" ]
    [ Hotel.mk "Budget Inn" 1000 3.5%float;
      Hotel.mk "Comfort Stay" 1500 4%float ]
    [ "top attractions in Goa - 1"; "top attractions in Goa - 2";
      "top attractions in Goa - 3"; "top attractions in Goa - 4";
      "top attractions in Goa - 5" ].

Definition demo_budget : BudgetResult.t :=
  BudgetResult.mk 8950 "within_budget" (Breakdown.mk 4000 1000 1200 750).

(** A process that has served nothing yet; its generator yields the raw
    draws of [tape] and then zeros. *)
Definition world_of_tape (tape : list Z) : World :=
  mkWorld METRICS_init (fun n => nth n tape 0) 0
          (fun n => "plan-" ++ str_int (Z.of_nat n)) 0 [] "2025-01-01 00:00:00".

(** The sample [0.96] as a 53-bit integer: [0.96 = sample_096 / 2^53]. *)
Definition sample_096 : Z := 8646911284551352.

(** Draws giving the prices of the scenario; the first hotel's rating is
    computed from the sample [0.96]. *)
Definition demo_world : World :=
  world_of_tape [0; 500; 200; sample_096; 0; 0].

Definition zero_days_request : PlanRequest.t :=
  PlanRequest.mk "Delhi" "Goa" 20000 0.

(** A week in Goa: more days than the search returns places. *)
Definition week_request : PlanRequest.t :=
  PlanRequest.mk "Delhi" "Goa" 20000 7.

(** Task sets that differ only in the two queries the search never reads. *)
Definition terse_tasks : Tasks.t :=
  Tasks.mk "" "" "top attractions in Goa".

(** A process that has already served plans, with other draws further down
    the tape than the search reads. *)
Definition busy_world : World :=
  mkWorld (mkMetrics 7 28) (fun n => nth n [0; 500; 200; sample_096; 0; 0; 99] 0)
          0 (fun n => "plan-" ++ str_int (Z.of_nat n)) 7 ["earlier"]
          "2025-06-30 12:00:00".

(** ** Requests served one after the other

    The endpoint called once per request of [reqs], each call starting in
    the state the previous one left; the responses are collected in order. *)
Definition serve (reqs : list PlanRequest.t) : Py.t (list Response.t) :=
  Py.for_in reqs
    (fun req served =>
       resp <- create_plan req ;; Py.ret (served ++ [resp])%list)
    [].

(** * Properties *)

(** ** Running the monad *)

Lemma bind_returns {A B} (c : Py.t A) (k : A -> Py.t B) w a w1 :
  c w = (w1, inr a) -> Py.bind c k w = k a w1.
Proof. intros H. unfold Py.bind. rewrite H. reflexivity. Qed.

(** ** Sanity checks of the builtins *)

Example str_int_examples :
  str_int 0 = "0" /\ str_int 12 = "12" /\ str_int (-5) = "-5".
Proof. repeat split. Qed.

Example py_range_examples :
  py_range 3 = [0; 1; 2] /\ py_range 0 = [] /\ py_range (-2) = [].
Proof. repeat split. Qed.

Example py_getitem_examples :
  snd (py_getitem ["a"; "b"; "c"] (-1) demo_world) = inr "c" /\
  snd (py_getitem ["a"; "b"; "c"] 3 demo_world) = inl IndexError /\
  snd (py_mod 7 0 demo_world) = inl ZeroDivisionError /\
  snd (py_min [] None demo_world) = inl ValueError /\
  snd (py_min [5; 3; 9] None demo_world) = inr 3.
Proof. repeat split. Qed.

(** Halfway cases go to the even neighbour, and it is the exact binary value
    that is rounded: [2.5] is a tie, [3.75] is a tie, [3.96875] is not. *)
Example py_round_examples :
  py_round 2.5%float 0 = 2%float /\
  py_round 3.5%float 0 = 4%float /\
  py_round 3.75%float 1 = float_of_ratio false 38 10 /\
  py_round 3.96875%float 1 = 4%float /\
  py_round (-0.03125)%float 1 = (-0)%float /\
  py_round 3%float 1 = 3%float.
Proof. repeat split; vm_compute; reflexivity. Qed.

(** ** Minimum of a list of prices *)

Lemma fold_left_min_le (xs : list Z) (a : Z) :
  fold_left Z.min xs a <= a /\ Forall (fun x => fold_left Z.min xs a <= x) xs.
Proof.
  revert a. induction xs as [|x xs IH]; intros a; simpl.
  - split; [lia | constructor].
  - destruct (IH (Z.min a x)) as [Hle Hall]. split; [lia|].
    constructor; [lia | exact Hall].
Qed.

Lemma fold_left_min_in (xs : list Z) (a : Z) :
  fold_left Z.min xs a = a \/ In (fold_left Z.min xs a) xs.
Proof.
  revert a. induction xs as [|x xs IH]; intros a; simpl.
  - left; reflexivity.
  - destruct (IH (Z.min a x)) as [H|H].
    + rewrite H. destruct (Z.min_spec a x) as [[_ E]|[_ E]]; rewrite E; auto.
    + right; right; exact H.
Qed.

Lemma cheapest_is_minimum (xs : list Z) :
  xs <> [] -> is_minimum xs (cheapest xs).
Proof.
  destruct xs as [|x xs]; [congruence|]. intros _. unfold is_minimum; simpl.
  destruct (fold_left_min_le xs x) as [Hle Hall].
  destruct (fold_left_min_in xs x) as [H|H]; split; auto.
Qed.

Lemma cheapest_map_is_minimum {A} (price : A -> Z) (xs : list A) :
  xs <> [] -> is_minimum (map price xs) (cheapest (map price xs)).
Proof.
  intros H. apply cheapest_is_minimum. destruct xs; [congruence|discriminate].
Qed.

Lemma py_min_default (xs : list Z) (d : Z) (w : World) :
  py_min xs (Some d) w
  = (w, inr (match xs with [] => d | x :: xs' => fold_left Z.min xs' x end)).
Proof. destruct xs; reflexivity. Qed.

(** ** The budget stage *)

(** The whole run of [budget_agent], for any search result and request. *)
Lemma budget_agent_run (sr : SearchResult.t) (req : PlanRequest.t) (w : World) :
  budget_agent sr req w
  = (after_agent "[Budget] Calculating budget" w, inr (budget_result sr req)).
Proof.
  unfold budget_agent, Py.bind; simpl.
  rewrite !py_min_default. reflexivity.
Qed.

(** C1: with non-empty flights and hotels, [budget_agent] returns a result
    whose flight and hotel components are the minimum flight price and the
    minimum price per night, whose food and transport are 400 and 250 per
    day for [days = max(1, req.days)], whose total is
    [flight + hotel_per_night * days + food + transport], and whose status is
    ["within_budget"] when the total is at most the budget and
    ["over_budget"] otherwise. *)
Theorem budget_agent_computes (sr : SearchResult.t) (req : PlanRequest.t)
    (w : World) :
  SearchResult.flights sr <> [] ->
  SearchResult.hotels sr <> [] ->
  exists br w',
    returns (budget_agent sr req) w br w' /\
    let days := Z.max 1 (PlanRequest.days req) in
    let b := BudgetResult.breakdown br in
    is_minimum (map Flight.price (SearchResult.flights sr)) (Breakdown.flight b) /\
    is_minimum (map Hotel.price_per_night (SearchResult.hotels sr))
               (Breakdown.hotel_per_night b) /\
    Breakdown.food b = 400 * days /\
    Breakdown.transport b = 250 * days /\
    BudgetResult.total br
    = Breakdown.flight b + Breakdown.hotel_per_night b * days
      + Breakdown.food b + Breakdown.transport b /\
    (BudgetResult.total br <= PlanRequest.budget req ->
     BudgetResult.status br = "within_budget") /\
    (PlanRequest.budget req < BudgetResult.total br ->
     BudgetResult.status br = "over_budget").
Proof.
  intros Hf Hh. eexists; eexists. split; [apply budget_agent_run|].
  unfold budget_result. cbv zeta.
  cbn [BudgetResult.breakdown BudgetResult.total BudgetResult.status
       Breakdown.flight Breakdown.hotel_per_night Breakdown.food
       Breakdown.transport].
  split; [apply cheapest_map_is_minimum; exact Hf|].
  split; [apply cheapest_map_is_minimum; exact Hh|].
  split; [reflexivity|]. split; [reflexivity|]. split; [reflexivity|].
  split; intros H.
  - apply Z.leb_le in H. rewrite H. reflexivity.
  - apply Z.leb_gt in H. rewrite H. reflexivity.
Qed.

(** The scenario has flights and hotels; its total is 8950, within the
    budget of 20000. *)
Lemma budget_agent_computes_witness :
  SearchResult.flights demo_search <> [] /\
  SearchResult.hotels demo_search <> [] /\
  exists br w',
    returns (budget_agent demo_search demo_request) demo_world br w' /\
    BudgetResult.total br = 8950 /\
    BudgetResult.status br = "within_budget".
Proof.
  assert (Hf : SearchResult.flights demo_search <> []) by (simpl; discriminate).
  assert (Hh : SearchResult.hotels demo_search <> []) by (simpl; discriminate).
  split; [exact Hf|]. split; [exact Hh|].
  destruct (budget_agent_computes demo_search demo_request demo_world Hf Hh)
    as (br & w' & Hret & _ & _ & _ & _ & Htot & Hin & _).
  exists br, w'. split; [exact Hret|].
  unfold returns in Hret. rewrite budget_agent_run in Hret.
  injection Hret as _ Hbr. subst br. split; reflexivity.
Defined.

(** C3, as stated, fails: in the scenario the total is 8950 while the four
    breakdown components add up to 6950. *)
Lemma budget_total_differs_from_literal_sum :
  exists br w',
    returns (budget_agent demo_search demo_request) demo_world br w' /\
    BudgetResult.total br = 8950 /\
    Breakdown.flight (BudgetResult.breakdown br)
    + Breakdown.hotel_per_night (BudgetResult.breakdown br)
    + Breakdown.food (BudgetResult.breakdown br)
    + Breakdown.transport (BudgetResult.breakdown br) = 6950 /\
    BudgetResult.total br
    <> Breakdown.flight (BudgetResult.breakdown br)
       + Breakdown.hotel_per_night (BudgetResult.breakdown br)
       + Breakdown.food (BudgetResult.breakdown br)
       + Breakdown.transport (BudgetResult.breakdown br).
Proof.
  eexists; eexists. split; [apply budget_agent_run|].
  split; [reflexivity|]. split; [reflexivity|]. discriminate.
Qed.

(** C3 (amended): the total is the flight component, plus the per-night hotel
    component multiplied by [days = max(1, req.days)], plus food, plus
    transport; it coincides with the plain sum of the four components exactly
    when [req.days <= 1] or the hotel component is 0. *)
Theorem budget_total_breakdown (sr : SearchResult.t) (req : PlanRequest.t)
    (w : World) :
  exists br w',
    returns (budget_agent sr req) w br w' /\
    let days := Z.max 1 (PlanRequest.days req) in
    let b := BudgetResult.breakdown br in
    BudgetResult.total br
    = Breakdown.flight b + Breakdown.hotel_per_night b * days
      + Breakdown.food b + Breakdown.transport b /\
    (BudgetResult.total br
     = Breakdown.flight b + Breakdown.hotel_per_night b
       + Breakdown.food b + Breakdown.transport b
     <-> PlanRequest.days req <= 1 \/ Breakdown.hotel_per_night b = 0).
Proof.
  eexists; eexists. split; [apply budget_agent_run|].
  unfold budget_result. cbv zeta.
  cbn [BudgetResult.breakdown BudgetResult.total Breakdown.flight
       Breakdown.hotel_per_night Breakdown.food Breakdown.transport].
  split; [reflexivity|].
  set (h := cheapest (map Hotel.price_per_night (SearchResult.hotels sr))).
  set (d := PlanRequest.days req).
  split.
  - intros H. assert (E : h * (Z.max 1 d - 1) = 0) by lia.
    apply Z.mul_eq_0 in E. lia.
  - intros [H|H].
    + replace (Z.max 1 d) with 1 by lia. lia.
    + rewrite H. lia.
Qed.

(** C7: [budget_agent] returns normally on every search result, empty
    flights or hotels included: an empty collection gives the component 0,
    and with [days = 1] and both collections empty the total is
    [food + transport = 650]. *)
Theorem budget_agent_total_on_empty (sr : SearchResult.t)
    (req : PlanRequest.t) (w : World) :
  exists br w',
    returns (budget_agent sr req) w br w' /\
    let b := BudgetResult.breakdown br in
    (SearchResult.flights sr = [] -> Breakdown.flight b = 0) /\
    (SearchResult.hotels sr = [] -> Breakdown.hotel_per_night b = 0) /\
    (SearchResult.flights sr = [] -> SearchResult.hotels sr = [] ->
     PlanRequest.days req = 1 ->
     Breakdown.flight b = 0 /\ Breakdown.hotel_per_night b = 0 /\
     Breakdown.food b + Breakdown.transport b = 650 /\
     BudgetResult.total br = 650).
Proof.
  eexists; eexists. split; [apply budget_agent_run|].
  unfold budget_result. cbv zeta.
  cbn [BudgetResult.breakdown BudgetResult.total Breakdown.flight
       Breakdown.hotel_per_night Breakdown.food Breakdown.transport].
  split; [|split].
  - intros E; rewrite E; reflexivity.
  - intros E; rewrite E; reflexivity.
  - intros Ef Eh Ed. rewrite Ef, Eh, Ed. repeat split.
Qed.

(** The boundary scenario itself: one day, no flight, no hotel. *)
Example budget_agent_boundary_scenario :
  snd (budget_agent (SearchResult.mk [] [] [])
                    (PlanRequest.mk "Delhi" "Goa" 20000 1) demo_world)
  = inr (BudgetResult.mk 650 "within_budget" (Breakdown.mk 0 0 400 250)).
Proof. reflexivity. Qed.

(** ** The planner stage *)

Lemma planner_agent_run (req : PlanRequest.t) (w : World) :
  planner_agent req w
  = (after_agent (planner_log req) w,
     inr (PlannerResult.mk (planner_tasks req))).
Proof. reflexivity. Qed.

(** C8: [planner_agent] is deterministic: whatever the state of the process,
    two calls on the same request return the same task set, made of the three
    query strings built from the origin and the destination. *)
Theorem planner_agent_deterministic (req : PlanRequest.t) (w1 w2 : World) :
  snd (planner_agent req w1) = snd (planner_agent req w2) /\
  snd (planner_agent req w1)
  = inr (PlannerResult.mk
           (Tasks.mk
              ("cheap flights from " ++ PlanRequest.from_city req ++ " to "
                                     ++ PlanRequest.to_city req)
              ("budget hotels in " ++ PlanRequest.to_city req)
              ("top attractions in " ++ PlanRequest.to_city req))).
Proof. rewrite !planner_agent_run. split; reflexivity. Qed.

Example planner_agent_scenario :
  snd (planner_agent demo_request demo_world)
  = inr (PlannerResult.mk
           (Tasks.mk "cheap flights from Delhi to Goa" "budget hotels in Goa"
                     "top attractions in Goa")).
Proof. reflexivity. Qed.

(** ** Binary64 facts behind the rating

    The primitive floats are specified by their image in [spec_float]; the
    lemmas below follow the alignment, shift and rounding steps of that
    specification for the sum [3 + k * 2^-53]. *)

(** *** Bit lengths and shifts *)

(** [digits2_pos p] is the bit length of [p]. *)
Lemma digits2_bounds (p : positive) :
  2 ^ (Zpos (digits2_pos p) - 1) <= Zpos p < 2 ^ Zpos (digits2_pos p).
Proof.
  induction p as [p IH|p IH|]; simpl digits2_pos; [| |simpl; lia];
    rewrite Pos2Z.inj_succ;
    replace (Z.succ (Zpos (digits2_pos p)) - 1) with (Zpos (digits2_pos p)) by lia;
    rewrite Z.pow_succ_r by lia;
    assert (E : 2 ^ Zpos (digits2_pos p) = 2 * 2 ^ (Zpos (digits2_pos p) - 1))
      by (rewrite <- Z.pow_succ_r by lia; f_equal; lia);
    lia.
Qed.

Lemma digits2_unique (p : positive) (n : Z) :
  2 ^ (n - 1) <= Zpos p < 2 ^ n -> Zpos (digits2_pos p) = n.
Proof.
  intros [Hlo Hhi]. destruct (digits2_bounds p) as [Dlo Dhi].
  set (d := Zpos (digits2_pos p)) in *.
  assert (Hd : 0 < d) by (unfold d; lia).
  assert (Hn : 0 < n).
  { destruct (Z.lt_ge_cases 0 n) as [H|H]; [exact H|].
    assert (2 ^ n <= 2 ^ 0) by (apply Z.pow_le_mono_r; lia). simpl in *. lia. }
  destruct (Z.lt_trichotomy d n) as [H|[H|H]]; [|exact H|].
  - assert (2 ^ d <= 2 ^ (n - 1)) by (apply Z.pow_le_mono_r; lia). lia.
  - assert (2 ^ n <= 2 ^ (d - 1)) by (apply Z.pow_le_mono_r; lia). lia.
Qed.

(** Appending [s] zero bits multiplies by [2^s]. *)
Lemma iter_xO_pow (p s : positive) :
  Zpos (Pos.iter xO p s) = Zpos p * 2 ^ Zpos s.
Proof.
  induction s as [|s IH] using Pos.peano_ind.
  - simpl. lia.
  - rewrite Pos.iter_succ, Pos2Z.inj_succ, Z.pow_succ_r by lia.
    rewrite Pos2Z.inj_xO, IH. lia.
Qed.

(** One right shift halves the mantissa; [s] of them divide it by [2^s]. *)
Lemma shr_1_m (mrs : shr_record) :
  0 <= shr_m mrs -> shr_m (shr_1 mrs) = shr_m mrs / 2.
Proof.
  destruct mrs as [m r s]. simpl. intros Hm.
  destruct m as [|[p|p|]|p]; cbn [shr_m]; try lia; try reflexivity.
  - apply Z.div_unique with (r := 1); lia.
  - apply Z.div_unique with (r := 0); lia.
Qed.

Lemma iter_shr_1_m (n : positive) (mrs : shr_record) :
  0 <= shr_m mrs ->
  shr_m (iter_pos shr_1 n mrs) = shr_m mrs / 2 ^ Zpos n.
Proof.
  revert mrs. induction n as [n IH|n IH|]; intros mrs Hm; simpl iter_pos.
  - assert (P : 0 < 2 ^ Zpos n) by (apply Z.pow_pos_nonneg; lia).
    assert (H1 : 0 <= shr_m (shr_1 mrs)).
    { rewrite shr_1_m by exact Hm. apply Z.div_pos; lia. }
    assert (H2 : 0 <= shr_m (iter_pos shr_1 n (shr_1 mrs))).
    { rewrite IH by exact H1. apply Z.div_pos; lia. }
    rewrite IH by exact H2. rewrite IH by exact H1. rewrite shr_1_m by exact Hm.
    rewrite !Z.div_div by lia.
    assert (E : 2 ^ Zpos n~1 = 2 * 2 ^ Zpos n * 2 ^ Zpos n).
    { rewrite Pos2Z.inj_xI.
      replace (2 * Zpos n + 1) with (Zpos n + Zpos n + 1) by lia.
      rewrite !Z.pow_add_r by lia. rewrite Z.pow_1_r. ring. }
    rewrite E. f_equal. ring.
  - assert (P : 0 < 2 ^ Zpos n) by (apply Z.pow_pos_nonneg; lia).
    assert (H2 : 0 <= shr_m (iter_pos shr_1 n mrs)).
    { rewrite IH by exact Hm. apply Z.div_pos; lia. }
    rewrite IH by exact H2. rewrite IH by exact Hm.
    rewrite Z.div_div by lia.
    f_equal. rewrite Pos2Z.inj_xO. rewrite <- Z.pow_add_r by lia. f_equal. lia.
  - rewrite shr_1_m by exact Hm. reflexivity.
Qed.

(** The exponent of a normal number with [x] bits before the point. *)
Lemma fexp_normal (x : Z) : -1021 <= x -> fexp prec emax x = x - 53.
Proof. intros H. unfold fexp, emin, prec, emax. lia. Qed.

(** A 53-bit mantissa at an exponent in range is already rounded. *)
Lemma binary_round_aux_canonical (m : positive) (e : Z) :
  Zpos (digits2_pos m) = 53 -> -1074 <= e <= 971 ->
  binary_round_aux prec emax false (Zpos m) e loc_Exact = S754_finite false m e.
Proof.
  intros Hd He.
  assert (Hs : shr_fexp prec emax (Zpos m) e loc_Exact
               = (Build_shr_record (Zpos m) false false, e)).
  { unfold shr_fexp. cbn [Zdigits2 shr_record_of_loc]. rewrite Hd.
    rewrite fexp_normal by lia.
    replace (53 + e - 53 - e) with 0 by lia. reflexivity. }
  unfold binary_round_aux. rewrite Hs.
  cbn [shr_m loc_of_shr_record round_nearest_even]. rewrite Hs. cbn [shr_m].
  replace (e <=? emax - prec) with true; [reflexivity|].
  symmetry. apply Z.leb_le. unfold emax, prec. lia.
Qed.

(** *** The sample and the sum *)

Lemma valid_canonical (m : positive) (e : Z) :
  Zpos (digits2_pos m) = 53 -> -1074 <= e <= 971 ->
  valid_binary (S754_finite false m e) = true.
Proof.
  intros Hd He. unfold SpecFloat.valid_binary, bounded, canonical_mantissa.
  rewrite Hd, fexp_normal by lia.
  apply andb_true_intro. split.
  - apply Z.eqb_eq. lia.
  - apply Z.leb_le. unfold emax, prec. lia.
Qed.

(** The sample [k * 2^-53], for [0 < k < 2^53], is the normal number whose
    mantissa is [k] shifted left to 53 bits. *)
Lemma float_of_dyadic_unit (k : Z) :
  0 < k < 2 ^ 53 ->
  exists mz s,
    0 <= s <= 52 /\ Zpos mz = k * 2 ^ s /\
    Prim2SF (float_of_dyadic k (-53)) = S754_finite false mz (- 53 - s).
Proof.
  intros [Hlo Hhi]. destruct k as [|p|p]; try lia.
  destruct (digits2_bounds p) as [Dlo Dhi].
  assert (Hd : 1 <= Zpos (digits2_pos p) <= 53).
  { split; [lia|]. destruct (Z.le_gt_cases (Zpos (digits2_pos p)) 53) as [H|H]; [exact H|].
    assert (2 ^ 53 <= 2 ^ (Zpos (digits2_pos p) - 1)) by (apply Z.pow_le_mono_r; lia).
    lia. }
  unfold float_of_dyadic. cbn [binary_normalize]. unfold binary_round.
  rewrite fexp_normal by lia. unfold shl_align.
  destruct (Z.pos (digits2_pos p) + -53 - 53 - -53) as [|q|q] eqn:Eq; try lia.
  - exists p, 0. split; [lia|]. split; [lia|].
    rewrite binary_round_aux_canonical by lia.
    apply Prim2SF_SF2Prim. apply valid_canonical; lia.
  - assert (Hq : Zpos (digits2_pos (Pos.iter xO p q)) = 53).
    { apply digits2_unique. rewrite iter_xO_pow.
      replace 53 with (Zpos (digits2_pos p) + Zpos q) at 2 by lia.
      replace (53 - 1) with (Zpos (digits2_pos p) - 1 + Zpos q) by lia.
      rewrite !Z.pow_add_r by lia.
      assert (0 < 2 ^ Zpos q) by (apply Z.pow_pos_nonneg; lia). nia. }
    exists (Pos.iter xO p q), (Zpos q). split; [lia|]. split; [apply iter_xO_pow|].
    replace (Z.pos (digits2_pos p) + -53 - 53) with (-53 - Zpos q) by lia.
    rewrite binary_round_aux_canonical by lia.
    apply Prim2SF_SF2Prim. apply valid_canonical; lia.
Qed.

Lemma round_nearest_even_step (m : Z) (l : location) :
  round_nearest_even m l = m \/ round_nearest_even m l = m + 1.
Proof.
  destruct l as [|[| |]]; simpl; auto. destruct (Z.even m); auto.
Qed.

(** Rounding a mantissa of 53 or 54 bits at exponent [-51]. *)
Lemma shr_fexp_near_four (mp : positive) :
  3 * 2 ^ 51 <= Zpos mp <= 2 ^ 53 ->
  exists m e,
    (let '(mrs, e') := shr_fexp prec emax (Zpos mp) (-51) loc_Exact in
     (shr_m mrs, e')) = (Zpos m, e) /\
    ((e = -51 /\ 3 * 2 ^ 51 <= Zpos m < 2 ^ 53) \/ (e = -50 /\ Zpos m = 2 ^ 52)).
Proof.
  intros [Hlo Hhi].
  destruct (Z.eq_dec (Zpos mp) (2 ^ 53)) as [E|E].
  - injection E as E. subst mp. exists (Z.to_pos (2 ^ 52)), (-50).
    split; [vm_compute; reflexivity|]. right. split; [reflexivity|]. reflexivity.
  - assert (Hd : Zpos (digits2_pos mp) = 53).
    { apply digits2_unique. change (53 - 1) with 52.
      change (2 ^ 52) with 4503599627370496. change (2 ^ 51) with 2251799813685248 in Hlo.
      lia. }
    exists mp, (-51). split.
    + unfold shr_fexp. cbn [Zdigits2 shr_record_of_loc]. rewrite Hd.
      reflexivity.
    + left. split; [reflexivity|lia].
Qed.

(** The sample lies in [[0, 1)]. *)
Lemma float_of_dyadic_unit_interval (k : Z) :
  0 <= k < 2 ^ 53 ->
  (0 <=? float_of_dyadic k (-53))%float = true /\
  (float_of_dyadic k (-53) <? 1)%float = true.
Proof.
  intros [Hlo Hhi].
  destruct (Z.eq_dec k 0) as [->|Hk]; [split; vm_compute; reflexivity|].
  destruct (float_of_dyadic_unit k) as (mz & s & Hs & Hmz & Hr); [lia|].
  assert (H0 : Prim2SF 0 = S754_zero false) by (vm_compute; reflexivity).
  assert (H1 : Prim2SF 1 = S754_finite false 4503599627370496 (-52))
    by (vm_compute; reflexivity).
  rewrite leb_spec, ltb_spec, Hr, H0, H1. split; [reflexivity|].
  unfold SFltb, SFcompare.
  replace (-53 - s ?= -52) with Lt; [reflexivity|].
  symmetry. apply Z.compare_lt_iff. lia.
Qed.

(** [3 + k * 2^-53] is either a 53-bit mantissa at exponent [-51], from 3
    upwards, or exactly 4 (when the sum rounds up past the last double
    below 4). *)
Lemma three_plus_unit_SF (k : Z) :
  0 <= k < 2 ^ 53 ->
  exists m e,
    Prim2SF (3 + float_of_dyadic k (-53))%float = S754_finite false m e /\
    ((e = -51 /\ 3 * 2 ^ 51 <= Zpos m < 2 ^ 53) \/ (e = -50 /\ Zpos m = 2 ^ 52)).
Proof.
  intros [Hlo Hhi].
  destruct (Z.eq_dec k 0) as [->|Hk].
  - exists 6755399441055744%positive, (-51).
    split; [vm_compute; reflexivity|]. left. split; [reflexivity|].
    vm_compute. split; congruence.
  - destruct (float_of_dyadic_unit k) as (mz & s & Hs & Hmz & Hr); [lia|].
    assert (H3 : Prim2SF 3 = S754_finite false 6755399441055744 (-51))
      by (vm_compute; reflexivity).
    rewrite add_spec, Hr, H3. unfold SF64add, SFadd.
    replace (Z.min (-51) (-53 - s)) with (-53 - s) by lia.
    unfold shl_align at 2. rewrite Z.sub_diag. cbn [fst cond_Zopp].
    unfold shl_align.
    destruct (-53 - s - -51) as [|q|q] eqn:Eq; try lia.
    cbn [fst]. rewrite <- Pos2Z.inj_add. cbn [binary_normalize].
    set (M := (Pos.iter xO 6755399441055744 q + mz)%positive).
    assert (HM : Zpos M = 2 ^ s * (3 * 2 ^ 53 + k)).
    { unfold M. rewrite Pos2Z.inj_add, iter_xO_pow, Hmz.
      replace (Zpos q) with (s + 2) by lia.
      rewrite Z.pow_add_r by lia. change (2 ^ 2) with 4.
      change (2 ^ 53) with 9007199254740992. lia. }
    assert (Ps : 0 < 2 ^ s) by (apply Z.pow_pos_nonneg; lia).
    assert (Hd : Zpos (digits2_pos M) = s + 55).
    { apply digits2_unique. rewrite HM.
      replace (s + 55 - 1) with (s + 54) by lia.
      rewrite !Z.pow_add_r by lia.
      change (2 ^ 53) with 9007199254740992 in *.
      change (2 ^ 54) with 18014398509481984.
      change (2 ^ 55) with 36028797018963968. nia. }
    unfold binary_round. rewrite Hd, fexp_normal by lia. unfold shl_align.
    destruct (s + 55 + (-53 - s) - 53 - (-53 - s)) as [|q'|q'] eqn:Eq'; try lia.
    unfold binary_round_aux.
    unfold shr_fexp at 1. cbn [Zdigits2 shr_record_of_loc]. rewrite Hd.
    rewrite fexp_normal by lia. rewrite Eq'. unfold shr.
    set (mrs := iter_pos shr_1 q' _).
    assert (Hm : shr_m mrs = (3 * 2 ^ 53 + k) / 4).
    { unfold mrs. rewrite iter_shr_1_m by (cbn [shr_m]; lia). cbn [shr_m].
      rewrite HM. replace (Zpos q') with (s + 2) by lia.
      rewrite Z.pow_add_r by lia. change (2 ^ 2) with 4.
      rewrite Z.div_mul_cancel_l by lia. reflexivity. }
    assert (Hb : 3 * 2 ^ 51 <= shr_m mrs < 2 ^ 53).
    { rewrite Hm. change (2 ^ 53) with 9007199254740992.
      change (2 ^ 51) with 2251799813685248.
      split; [apply Z.div_le_lower_bound; lia | apply Z.div_lt_upper_bound; lia]. }
    set (m2 := round_nearest_even (shr_m mrs) (loc_of_shr_record mrs)).
    assert (Hm2 : 3 * 2 ^ 51 <= m2 <= 2 ^ 53).
    { destruct (round_nearest_even_step (shr_m mrs) (loc_of_shr_record mrs)) as [E|E];
        fold m2 in E; lia. }
    destruct m2 as [|mp|mp] eqn:Em2;
      try (change (2 ^ 51) with 2251799813685248 in Hm2; lia).
    replace (-53 - s + Zpos q') with (-51) by lia.
    destruct (shr_fexp_near_four mp Hm2) as (m & e & Hsh & Hcase).
    destruct (shr_fexp prec emax (Zpos mp) (-51) loc_Exact) as [mrs2 e2].
    injection Hsh as Hsm He. rewrite Hsm. subst e2.
    exists m, e. split; [|exact Hcase].
    replace (e <=? emax - prec) with true; [reflexivity|].
    symmetry. apply Z.leb_le. unfold emax, prec. lia.
Qed.

(** *** Rounding to one decimal *)

Lemma round_half_even_step (n d : Z) :
  round_half_even n d = n / d \/ round_half_even n d = n / d + 1.
Proof.
  unfold round_half_even.
  destruct (2 * (n mod d) <? d); auto.
  destruct (d <? 2 * (n mod d)); auto.
  destruct (Z.even (n / d)); auto.
Qed.

(** The rating is a whole number of tenths between 30 and 40, converted to
    the nearest double. *)
Lemma rating_of_raw_tenths (raw : Z) :
  exists t, 30 <= t <= 40 /\ rating_of_raw raw = float_of_ratio false t 10.
Proof.
  unfold rating_of_raw.
  assert (Hk : 0 <= raw mod 2 ^ 53 < 2 ^ 53) by (apply Z.mod_pos_bound; reflexivity).
  destruct (three_plus_unit_SF _ Hk) as (m & e & Hx & Hcase).
  unfold py_round. rewrite Hx.
  change (10 ^ Z.of_nat 1) with 10.
  destruct Hcase as [[-> Hm]|[-> Hm]].
  - change (0 <=? -51) with false. cbv iota. change (- -51) with 51.
    set (t := round_half_even (Zpos m * 10) (2 ^ 51)).
    assert (Ht : 30 <= t <= 40).
    { change (2 ^ 51) with 2251799813685248 in *.
      change (2 ^ 53) with 9007199254740992 in *.
      assert (30 <= Zpos m * 10 / 2251799813685248 < 40).
      { split; [apply Z.div_le_lower_bound; lia | apply Z.div_lt_upper_bound; lia]. }
      destruct (round_half_even_step (Zpos m * 10) 2251799813685248) as [E|E];
        fold t in E; lia. }
    exists t. split; [exact Ht|].
    destruct (t =? 0) eqn:E; [apply Z.eqb_eq in E; lia|]. reflexivity.
  - injection Hm as ->. exists 40. split; [lia|]. vm_compute. reflexivity.
Qed.

(** The eleven doubles [3.0, 3.1, ..., 4.0]. *)
Lemma tenths_between_3_and_4 (t : Z) :
  30 <= t <= 40 ->
  (3 <=? float_of_ratio false t 10)%float = true /\
  (float_of_ratio false t 10 <=? 4)%float = true.
Proof.
  intros Ht.
  assert (C : t = 30 \/ t = 31 \/ t = 32 \/ t = 33 \/ t = 34 \/ t = 35 \/
              t = 36 \/ t = 37 \/ t = 38 \/ t = 39 \/ t = 40) by lia.
  repeat (destruct C as [->|C]; [split; vm_compute; reflexivity|]).
  subst t. split; vm_compute; reflexivity.
Qed.

(** The rating drawn from [raw]: a sample of [[0, 1)] added to 3 and rounded
    to one decimal, which lands in [[3.0, 4.0]]. *)
Lemma rating_of_raw_spec (raw : Z) :
  exists r t,
    (0 <=? r)%float = true /\ (r <? 1)%float = true /\
    rating_of_raw raw = py_round (3 + r)%float 1 /\
    30 <= t <= 40 /\
    rating_of_raw raw = float_of_ratio false t 10 /\
    (3 <=? rating_of_raw raw)%float = true /\
    (rating_of_raw raw <=? 4)%float = true.
Proof.
  assert (Hk : 0 <= raw mod 2 ^ 53 < 2 ^ 53)
    by (apply Z.mod_pos_bound; reflexivity).
  destruct (float_of_dyadic_unit_interval _ Hk) as [H0 H1].
  destruct (rating_of_raw_tenths raw) as (t & Ht & E).
  destruct (tenths_between_3_and_4 t Ht) as [Hlo Hhi].
  exists (float_of_dyadic (raw mod 2 ^ 53) (-53)), t.
  rewrite E at 2 3 4. repeat split; try assumption; lia.
Qed.

(** ** The search stage *)

Lemma search_agent_run (tasks : Tasks.t) (w : World) :
  search_agent tasks w = (after_search w, inr (search_result tasks w)).
Proof. reflexivity. Qed.

(** Each price lies in the range passed to [randint]. *)
Lemma search_result_prices (tasks : Tasks.t) (w : World) :
  exists f1 f2 h1 h2,
    SearchResult.flights (search_result tasks w) = [f1; f2] /\
    SearchResult.hotels (search_result tasks w) = [h1; h2] /\
    4000 <= Flight.price f1 <= 12000 /\
    4500 <= Flight.price f2 <= 14000 /\
    800 <= Hotel.price_per_night h1 <= 2500 /\
    1500 <= Hotel.price_per_night h2 <= 4000.
Proof.
  do 4 eexists. split; [reflexivity|]. split; [reflexivity|].
  cbn [Flight.price Hotel.price_per_night].
  repeat split;
    match goal with
    | |- context [?x mod ?n] =>
        pose proof (Z.mod_pos_bound x n ltac:(reflexivity)); lia
    end.
Qed.

(** C5: [search_agent] returns, for every task set, exactly two flights, two
    hotels and five places, the i-th place being the places query followed by
    [" - i"], for i from 1 to 5. *)
Theorem search_agent_shape (tasks : Tasks.t) (w : World) :
  exists sr w',
    returns (search_agent tasks) w sr w' /\
    List.length (SearchResult.flights sr) = 2%nat /\
    List.length (SearchResult.hotels sr) = 2%nat /\
    List.length (SearchResult.places sr) = 5%nat /\
    SearchResult.places sr
    = [ Tasks.places_query tasks ++ " - 1";
        Tasks.places_query tasks ++ " - 2";
        Tasks.places_query tasks ++ " - 3";
        Tasks.places_query tasks ++ " - 4";
        Tasks.places_query tasks ++ " - 5" ].
Proof.
  eexists; eexists. split; [apply search_agent_run|].
  repeat split; reflexivity.
Qed.

(** [sample_096 / 2^53] is the double nearest to 0.96 (within half a unit in
    the last place, [2^-54]), a value [random.random()] can return, and
    [3 + 0.96] rounds to [4.0] at one decimal. *)
Example rating_of_sample_096 :
  0 <= sample_096 < 2 ^ 53 /\
  Z.abs (100 * sample_096 - 96 * 2 ^ 53) <= 50 /\
  (float_of_dyadic sample_096 (-53) <? 1)%float = true /\
  rating_of_raw sample_096 = 4%float.
Proof. repeat split; vm_compute; congruence. Qed.

(** C9, as stated, fails: when the sample drawn for the first hotel is
    [0.96], its rating is [round(3.96, 1) = 4.0], which is not below 4.0. *)
Lemma rating_reaches_four :
  exists sr w' h,
    returns (search_agent (planner_tasks demo_request)) demo_world sr w' /\
    In h (SearchResult.hotels sr) /\
    Hotel.rating h = 4%float /\
    (Hotel.rating h <? 4)%float = false.
Proof.
  eexists; eexists; eexists. split; [apply search_agent_run|].
  split; [left; reflexivity|].
  split; vm_compute; reflexivity.
Qed.

(** C9 (amended): each hotel's rating is [3 + r] rounded to one decimal for
    a sample [r] of [[0, 1)], that is the double nearest to [t / 10] for an
    integer [t] from 30 to 40, and lies in the closed interval [[3.0, 4.0]];
    4.0 itself is reached. *)
Theorem search_agent_ratings (tasks : Tasks.t) (w : World) :
  exists sr w',
    returns (search_agent tasks) w sr w' /\
    Forall (fun h =>
              exists r t,
                (0 <=? r)%float = true /\ (r <? 1)%float = true /\
                Hotel.rating h = py_round (3 + r)%float 1 /\
                30 <= t <= 40 /\
                Hotel.rating h = float_of_ratio false t 10 /\
                (3 <=? Hotel.rating h)%float = true /\
                (Hotel.rating h <=? 4)%float = true)
           (SearchResult.hotels sr).
Proof.
  eexists; eexists. split; [apply search_agent_run|].
  unfold search_result. cbv zeta. cbn [SearchResult.hotels].
  repeat constructor; cbn [Hotel.rating]; apply rating_of_raw_spec.
Qed.

(** ** The summarizer stage *)

Lemma py_getitem_in_range {A} (xs : list A) (i : Z) (dflt : A) (w : World) :
  0 <= i < len xs ->
  py_getitem xs i w = (w, inr (nth (Z.to_nat i) xs dflt)).
Proof.
  intros [Hlo Hhi]. unfold py_getitem, len in *.
  destruct (i <? 0) eqn:E; [apply Z.ltb_lt in E; lia|]. rewrite E.
  destruct (nth_error xs (Z.to_nat i)) as [x|] eqn:Hn.
  - rewrite (nth_error_nth _ _ dflt Hn). reflexivity.
  - apply nth_error_None in Hn. lia.
Qed.

(** One turn of the loop never raises: the index [d mod len(places)] is in
    range whenever [places] is not empty, whatever the sign of [d]. *)
Lemma itinerary_entry_run (places : list string) (d : Z) (w : World) :
  itinerary_entry places d w = (w, inr (entry_text places d)).
Proof.
  unfold itinerary_entry, entry_text, place_of_day.
  destruct places as [|p ps]; [reflexivity|].
  set (xs := p :: ps).
  assert (Hlen : 0 < len xs) by (unfold len, xs; simpl; lia).
  assert (Hm : 0 <= d mod len xs < len xs) by (apply Z.mod_pos_bound; lia).
  unfold Py.bind, py_mod.
  destruct (len xs =? 0) eqn:E; [apply Z.eqb_eq in E; lia|].
  unfold Py.ret at 1.
  rewrite (py_getitem_in_range xs _ "" w Hm). reflexivity.
Qed.

(** The loop appends one entry per element of the range and touches nothing
    else. *)
Lemma itinerary_loop (places : list string) (ds : list Z) (acc : list string)
    (w : World) :
  Py.for_in ds
    (fun d itinerary =>
       entry <- itinerary_entry places d ;; Py.ret (itinerary ++ [entry])%list)
    acc w
  = (w, inr (acc ++ map (entry_text places) ds)%list).
Proof.
  revert acc. induction ds as [|d ds IH]; intros acc; simpl.
  - rewrite app_nil_r. reflexivity.
  - unfold Py.bind at 1 2. rewrite itinerary_entry_run. unfold Py.ret at 1.
    rewrite IH, <- app_assoc. reflexivity.
Qed.

Lemma summarizer_agent_run (req : PlanRequest.t) (sr : SearchResult.t)
    (br : BudgetResult.t) (w : World) :
  summarizer_agent req sr br w
  = (after_summarizer w, inr (summary_result req sr br w)).
Proof.
  unfold summarizer_agent.
  unfold Py.bind at 1 2 3 4. simpl.
  rewrite itinerary_loop. reflexivity.
Qed.

Lemma py_range_length (n : Z) : List.length (py_range n) = Z.to_nat n.
Proof. unfold py_range. rewrite length_map, length_seq. reflexivity. Qed.

Lemma py_range_nth (n d : Z) :
  0 <= d < n -> nth_error (py_range n) (Z.to_nat d) = Some d.
Proof.
  intros H. unfold py_range.
  rewrite nth_error_map, nth_error_seq.
  destruct (Nat.ltb_spec (Z.to_nat d) (Z.to_nat n)) as [_|Hge]; [|lia].
  simpl. f_equal. lia.
Qed.

Lemma py_range_nonpositive (n : Z) : n <= 0 -> py_range n = [].
Proof.
  intros H. unfold py_range. replace (Z.to_nat n) with 0%nat by lia. reflexivity.
Qed.

Lemma itinerary_length (places : list string) (n : Z) :
  len (map (entry_text places) (py_range n)) = Z.max 0 n.
Proof. unfold len. rewrite length_map, py_range_length. lia. Qed.

(** C2: for a request with [days = n >= 1], [summarizer_agent] returns a
    summary whose itinerary has exactly [n] entries; entry [d] (0-indexed) is
    ["Day {d+1}: "] followed by [places[d mod len(places)]] when there are
    places and by ["Local exploration"] when there are none. *)
Theorem summarizer_itinerary (req : PlanRequest.t) (sr : SearchResult.t)
    (br : BudgetResult.t) (w : World) :
  1 <= PlanRequest.days req ->
  exists s w',
    returns (summarizer_agent req sr br) w s w' /\
    len (Summary.itinerary s) = PlanRequest.days req /\
    forall d, 0 <= d < PlanRequest.days req ->
      nth_error (Summary.itinerary s) (Z.to_nat d)
      = Some ("Day " ++ str_int (d + 1) ++ ": "
              ++ match SearchResult.places sr with
                 | [] => "Local exploration"
                 | _ :: _ =>
                     nth (Z.to_nat (d mod len (SearchResult.places sr)))
                         (SearchResult.places sr) ""
                 end).
Proof.
  intros Hn. eexists; eexists. split; [apply summarizer_agent_run|].
  unfold summary_result. cbn [Summary.itinerary].
  split.
  - rewrite itinerary_length. lia.
  - intros d Hd. rewrite nth_error_map, (py_range_nth _ _ Hd). reflexivity.
Qed.

(** The scenario has [days = 3]: three entries, over the first three
    places. *)
Lemma summarizer_itinerary_witness :
  1 <= PlanRequest.days demo_request /\
  exists s w',
    returns (summarizer_agent demo_request demo_search demo_budget)
            demo_world s w' /\
    Summary.itinerary s
    = [ "Day 1: top attractions in Goa - 1";
        "Day 2: top attractions in Goa - 2";
        "Day 3: top attractions in Goa - 3" ].
Proof.
  assert (Hn : 1 <= PlanRequest.days demo_request) by (simpl; lia).
  split; [exact Hn|].
  destruct (summarizer_itinerary demo_request demo_search demo_budget
              demo_world Hn) as (s & w' & Hret & _).
  exists s, w'. split; [exact Hret|].
  unfold returns in Hret. rewrite summarizer_agent_run in Hret.
  injection Hret as _ Hs. subst s. reflexivity.
Defined.

(** Days beyond the number of places reuse them cyclically; without places
    every day is spent exploring. *)
Example summarizer_cycles :
  map (entry_text ["a"; "b"; "c"]) (py_range 7)
  = [ "Day 1: a"; "Day 2: b"; "Day 3: c"; "Day 4: a"; "Day 5: b"; "Day 6: c";
      "Day 7: a" ] /\
  map (entry_text []) (py_range 2)
  = [ "Day 1: Local exploration"; "Day 2: Local exploration" ].
Proof. split; reflexivity. Qed.

(** ** The pipeline *)

(** [create_plan] counts the plan, then runs the four stages in order, each
    in the state its predecessor left: the search on the planner's tasks, the
    budget on the search result and the request as given, the summarizer on
    the request as given, the search result and the budget. *)
Lemma create_plan_run (req : PlanRequest.t) (w : World) :
  let w1 := after_agent (planner_log req) (after_plan_counted w) in
  let sr := search_result (planner_tasks req) w1 in
  let w3 := after_agent "[Budget] Calculating budget" (after_search w1) in
  let br := budget_result sr req in
  let w4 := after_summarizer w3 in
  create_plan req w
  = (w4,
     inr (Response.mk (summary_result req sr br w3)
            (Raw.mk (PlannerResult.mk (planner_tasks req)) sr br)
            (METRICS w4) (clock w4))).
Proof.
  cbv zeta. unfold create_plan.
  rewrite (bind_returns _ _ w tt (after_plan_counted w)) by reflexivity.
  erewrite bind_returns by apply planner_agent_run.
  erewrite bind_returns by apply search_agent_run.
  erewrite bind_returns by apply budget_agent_run.
  erewrite bind_returns by apply summarizer_agent_run.
  reflexivity.
Qed.

(** C6: one run of [create_plan] adds exactly 4 to [agent_calls] and exactly
    1 to [plans_created]; the metrics hold nothing else, so the final
    [METRICS] is the initial one with these two increments. *)
Theorem create_plan_metrics (req : PlanRequest.t) (w : World) :
  exists resp w',
    returns (create_plan req) w resp w' /\
    agent_calls (METRICS w') = agent_calls (METRICS w) + 4 /\
    plans_created (METRICS w') = plans_created (METRICS w) + 1 /\
    METRICS w' = mkMetrics (plans_created (METRICS w) + 1)
                           (agent_calls (METRICS w) + 4).
Proof.
  eexists; eexists. split; [apply create_plan_run|].
  cbn [after_summarizer after_agent after_search after_plan_counted METRICS
       agent_calls plans_created].
  repeat split; try lia. f_equal; lia.
Qed.

(** The scenario run end to end. *)
Example create_plan_scenario :
  exists resp w',
    returns (create_plan demo_request) demo_world resp w' /\
    Summary.budget (Response.summary resp) = demo_budget /\
    Summary.itinerary (Response.summary resp)
    = [ "Day 1: top attractions in Goa - 1";
        "Day 2: top attractions in Goa - 2";
        "Day 3: top attractions in Goa - 3" ] /\
    Response.metrics resp = mkMetrics 1 4 /\
    logged w'
    = [ "[Planner] Creating tasks for trip Delhi -> Goa";
        "[Search] Running fake searches for tasks";
        "[Budget] Calculating budget";
        "[Summarizer] Creating final plan summary" ].
Proof.
  eexists; eexists. split; [apply create_plan_run|].
  repeat split; vm_compute; reflexivity.
Qed.

(** C10: for a request with [days <= 0] the pipeline still returns; the
    itinerary is empty, while the budget is priced for one day: 400 of food,
    250 of transport and one night of the cheapest hotel. *)
Theorem create_plan_nonpositive_days (req : PlanRequest.t) (w : World) :
  PlanRequest.days req <= 0 ->
  exists resp w',
    returns (create_plan req) w resp w' /\
    let s := Response.summary resp in
    let b := BudgetResult.breakdown (Summary.budget s) in
    Summary.itinerary s = [] /\
    Breakdown.food b = 400 /\
    Breakdown.transport b = 250 /\
    is_minimum (map Hotel.price_per_night (Summary.hotels s))
               (Breakdown.hotel_per_night b) /\
    is_minimum (map Flight.price (Summary.flights s)) (Breakdown.flight b) /\
    BudgetResult.total (Summary.budget s)
    = Breakdown.flight b + Breakdown.hotel_per_night b + 400 + 250.
Proof.
  intros Hd. eexists; eexists. split; [apply create_plan_run|].
  cbv zeta. unfold summary_result, budget_result. cbv zeta.
  cbn [Response.summary Summary.itinerary Summary.budget Summary.hotels
       Summary.flights BudgetResult.breakdown BudgetResult.total
       Breakdown.food Breakdown.transport Breakdown.hotel_per_night
       Breakdown.flight].
  replace (Z.max 1 (PlanRequest.days req)) with 1 by lia.
  split; [rewrite py_range_nonpositive by exact Hd; reflexivity|].
  split; [reflexivity|]. split; [reflexivity|].
  split; [apply cheapest_map_is_minimum; discriminate|].
  split; [apply cheapest_map_is_minimum; discriminate|].
  lia.
Qed.

(** With [days = 0] and the scenario's prices: no entry, and a total of
    [4000 + 1000 + 400 + 250]. *)
Lemma create_plan_nonpositive_days_witness :
  PlanRequest.days zero_days_request <= 0 /\
  exists resp w',
    returns (create_plan zero_days_request) demo_world resp w' /\
    Summary.itinerary (Response.summary resp) = [] /\
    BudgetResult.total (Summary.budget (Response.summary resp)) = 5650.
Proof.
  assert (Hd : PlanRequest.days zero_days_request <= 0) by (simpl; lia).
  split; [exact Hd|].
  destruct (create_plan_nonpositive_days zero_days_request demo_world Hd)
    as (resp & w' & Hret & _).
  exists resp, w'. split; [exact Hret|].
  unfold returns in Hret. rewrite create_plan_run in Hret.
  injection Hret as _ Hresp. subst resp. split; vm_compute; reflexivity.
Defined.

(** C4, as stated, fails: a request constructed with [days = 0] keeps
    [days = 0 < 1], the pipeline runs on it, and the summarizer stage, which
    receives it as it is, iterates over [range(0)] and returns no entry. *)
Lemma days_below_one_reaches_stages :
  PlanRequest.days zero_days_request < 1 /\
  exists resp w',
    returns (create_plan zero_days_request) demo_world resp w' /\
    Summary.itinerary (Response.summary resp) = [].
Proof.
  split; [simpl; lia|].
  eexists; eexists. split; [apply create_plan_run|]. reflexivity.
Qed.

(** C4 (amended): a request reaches the stages with the [days] it was
    constructed with, whatever integer that is.  The summarizer iterates over
    [range(days)] of that raw value, so its itinerary has [max(0, days)]
    entries; the minimum of 1 is applied only inside [budget_agent], whose
    food, transport and hotel nights are priced for [max(1, days)] days. *)
Theorem create_plan_days_as_constructed (req : PlanRequest.t) (w : World) :
  exists resp w',
    returns (create_plan req) w resp w' /\
    let s := Response.summary resp in
    let b := BudgetResult.breakdown (Summary.budget s) in
    len (Summary.itinerary s) = Z.max 0 (PlanRequest.days req) /\
    Breakdown.food b = 400 * Z.max 1 (PlanRequest.days req) /\
    Breakdown.transport b = 250 * Z.max 1 (PlanRequest.days req) /\
    BudgetResult.total (Summary.budget s)
    = Breakdown.flight b
      + Breakdown.hotel_per_night b * Z.max 1 (PlanRequest.days req)
      + Breakdown.food b + Breakdown.transport b.
Proof.
  eexists; eexists. split; [apply create_plan_run|].
  cbv zeta. unfold summary_result, budget_result. cbv zeta.
  cbn [Response.summary Summary.itinerary Summary.budget
       BudgetResult.breakdown BudgetResult.total
       Breakdown.food Breakdown.transport Breakdown.hotel_per_night
       Breakdown.flight].
  split; [apply itinerary_length|]. repeat split.
Qed.

(** * Further properties of the stages *)

(** ** What the search offers *)

(** X1: the search always offers the same two airlines and the same two
    hotels, with fixed departure and arrival times; only the prices and the
    ratings vary, each price within the range passed to [randint]. *)
Theorem search_agent_offers (tasks : Tasks.t) (w : World) :
  exists p1 p2 n1 n2 r1 r2 sr w',
    returns (search_agent tasks) w sr w' /\
    SearchResult.flights sr
    = [ Flight.mk "AirFast" p1 "06:00" "09:00";
        Flight.mk "SkyGo" p2 "12:00" "15:00" ] /\
    SearchResult.hotels sr
    = [ Hotel.mk "Budget Inn" n1 r1; Hotel.mk "Comfort Stay" n2 r2 ] /\
    4000 <= p1 <= 12000 /\
    4500 <= p2 <= 14000 /\
    800 <= n1 <= 2500 /\
    1500 <= n2 <= 4000.
Proof.
  do 8 eexists. split; [apply search_agent_run|].
  split; [reflexivity|]. split; [reflexivity|].
  repeat split;
    match goal with
    | |- context [?x mod ?n] =>
        pose proof (Z.mod_pos_bound x n ltac:(reflexivity)); lia
    end.
Qed.

(** X2: the search reads nothing of its task set but the places query, and
    nothing of the process but the next six draws of the generator: task
    sets with the same places query, in states whose next six draws agree,
    get the same result. *)
Theorem search_agent_reads_only (t1 t2 : Tasks.t) (w1 w2 : World) :
  Tasks.places_query t1 = Tasks.places_query t2 ->
  (forall i, (i < 6)%nat ->
             entropy w1 (i + drawn w1)%nat = entropy w2 (i + drawn w2)%nat) ->
  snd (search_agent t1 w1) = snd (search_agent t2 w2).
Proof.
  intros Hq Hd. rewrite !search_agent_run. cbn [snd]. unfold search_result.
  cbv zeta. rewrite Hq.
  rewrite (Hd 0%nat), (Hd 1%nat), (Hd 2%nat), (Hd 3%nat), (Hd 4%nat), (Hd 5%nat)
    by lia.
  reflexivity.
Qed.

(** The planner's tasks and a task set with empty flight and hotel queries,
    in a fresh process and in one that has served seven plans. *)
Lemma search_agent_reads_only_witness :
  snd (search_agent (planner_tasks demo_request) demo_world)
  = snd (search_agent terse_tasks busy_world).
Proof.
  apply search_agent_reads_only.
  - reflexivity.
  - intros i Hi.
    do 6 (destruct i as [|i]; [reflexivity|]). lia.
Defined.

(** ** What the budget charges *)

Lemma cheapest_nonneg (xs : list Z) :
  Forall (fun x => 0 <= x) xs -> 0 <= cheapest xs.
Proof.
  intros H. destruct xs as [|x xs]; [simpl; lia|].
  destruct (cheapest_is_minimum (x :: xs)) as [Hin _]; [discriminate|].
  rewrite Forall_forall in H. apply H. exact Hin.
Qed.

(** X3: a longer stay never costs less: with hotel prices that are not
    negative, the total for the same search result does not decrease when
    the days of the request increase. *)
Theorem budget_total_monotone_in_days (sr : SearchResult.t)
    (req1 req2 : PlanRequest.t) (w1 w2 : World) :
  Forall (fun h => 0 <= Hotel.price_per_night h) (SearchResult.hotels sr) ->
  PlanRequest.days req1 <= PlanRequest.days req2 ->
  exists b1 b2 w1' w2',
    returns (budget_agent sr req1) w1 b1 w1' /\
    returns (budget_agent sr req2) w2 b2 w2' /\
    BudgetResult.total b1 <= BudgetResult.total b2.
Proof.
  intros Hh Hd. do 4 eexists.
  split; [apply budget_agent_run|]. split; [apply budget_agent_run|].
  unfold budget_result. cbv zeta. cbn [BudgetResult.total].
  assert (H0 : 0 <= cheapest (map Hotel.price_per_night (SearchResult.hotels sr))).
  { apply cheapest_nonneg. rewrite Forall_map. exact Hh. }
  nia.
Qed.

Lemma budget_total_monotone_in_days_witness :
  exists b1 b2 w1' w2',
    returns (budget_agent demo_search demo_request) demo_world b1 w1' /\
    returns (budget_agent demo_search week_request) demo_world b2 w2' /\
    BudgetResult.total b1 <= BudgetResult.total b2.
Proof.
  apply budget_total_monotone_in_days.
  - repeat constructor; simpl; lia.
  - simpl; lia.
Defined.

(** X4: every request with [days <= 1] is priced as a one-day stay: zero
    and negative durations get the budget of the same request with
    [days = 1]. *)
Theorem budget_agent_floor_of_one_day (sr : SearchResult.t)
    (req : PlanRequest.t) (w : World) :
  PlanRequest.days req <= 1 ->
  snd (budget_agent sr req w)
  = snd (budget_agent sr
           (PlanRequest.mk (PlanRequest.from_city req) (PlanRequest.to_city req)
                           (PlanRequest.budget req) 1)
           w).
Proof.
  intros Hd. rewrite !budget_agent_run. cbn [snd]. unfold budget_result.
  cbn [PlanRequest.days PlanRequest.budget].
  replace (Z.max 1 (PlanRequest.days req)) with (Z.max 1 1) by lia.
  reflexivity.
Qed.

Lemma budget_agent_floor_of_one_day_witness :
  snd (budget_agent demo_search zero_days_request demo_world)
  = snd (budget_agent demo_search (PlanRequest.mk "Delhi" "Goa" 20000 1)
                      demo_world).
Proof.
  apply (budget_agent_floor_of_one_day demo_search zero_days_request demo_world).
  simpl; lia.
Defined.

(** ** What the summarizer writes *)

(** X5: the summarizer returns on every input, negative durations and an
    empty list of places included: the modulo and the indexing of its loop
    never raise.  The itinerary has [max(0, days)] entries, and the summary
    carries the cities of the request and the flights, hotels and budget it
    was given, unchanged. *)
Theorem summarizer_agent_never_raises (req : PlanRequest.t)
    (sr : SearchResult.t) (br : BudgetResult.t) (w : World) :
  exists s w',
    returns (summarizer_agent req sr br) w s w' /\
    len (Summary.itinerary s) = Z.max 0 (PlanRequest.days req) /\
    Summary.from s = PlanRequest.from_city req /\
    Summary.to s = PlanRequest.to_city req /\
    Summary.flights s = SearchResult.flights sr /\
    Summary.hotels s = SearchResult.hotels sr /\
    Summary.budget s = br.
Proof.
  eexists; eexists. split; [apply summarizer_agent_run|].
  unfold summary_result.
  cbn [Summary.itinerary Summary.from Summary.to Summary.flights
       Summary.hotels Summary.budget].
  split; [apply itinerary_length|]. repeat split.
Qed.

Lemma place_of_day_period (places : list string) (d : Z) :
  place_of_day places (d + len places) = place_of_day places d.
Proof.
  unfold place_of_day. destruct places as [|p ps]; [reflexivity|].
  replace (d + len (p :: ps)) with (d + 1 * len (p :: ps)) by lia.
  rewrite Z_mod_plus_full. reflexivity.
Qed.

Lemma place_of_day_in (places : list string) (d : Z) :
  places <> [] -> In (place_of_day places d) places.
Proof.
  intros Hne. unfold place_of_day. destruct places as [|p ps]; [congruence|].
  apply nth_In.
  assert (Hlen : 0 < len (p :: ps)) by (unfold len; simpl; lia).
  pose proof (Z.mod_pos_bound d (len (p :: ps)) Hlen) as Hm.
  unfold len in *. lia.
Qed.

(** X6: the places are reused with period [len(places)]: when there are
    places, the entries of day [d] and of day [d + len(places)] (0-indexed)
    name the same place, one of those the search returned. *)
Theorem summarizer_itinerary_period (req : PlanRequest.t)
    (sr : SearchResult.t) (br : BudgetResult.t) (w : World) (d : Z) :
  SearchResult.places sr <> [] ->
  0 <= d ->
  d + len (SearchResult.places sr) < PlanRequest.days req ->
  exists s w' place,
    returns (summarizer_agent req sr br) w s w' /\
    In place (SearchResult.places sr) /\
    nth_error (Summary.itinerary s) (Z.to_nat d)
    = Some ("Day " ++ str_int (d + 1) ++ ": " ++ place) /\
    nth_error (Summary.itinerary s)
              (Z.to_nat (d + len (SearchResult.places sr)))
    = Some ("Day " ++ str_int (d + len (SearchResult.places sr) + 1) ++ ": "
            ++ place).
Proof.
  intros Hne Hd Hlt.
  assert (Hlen : 0 <= len (SearchResult.places sr)) by (unfold len; lia).
  exists (summary_result req sr br w), (after_summarizer w),
         (place_of_day (SearchResult.places sr) d).
  split; [apply summarizer_agent_run|].
  split; [apply place_of_day_in; exact Hne|].
  unfold summary_result. cbn [Summary.itinerary].
  rewrite !nth_error_map, !py_range_nth by lia.
  cbn [option_map]. unfold entry_text. rewrite place_of_day_period.
  split; reflexivity.
Qed.

(** A week over the five places of the scenario: day 2 and day 7 both go to
    the second place. *)
Lemma summarizer_itinerary_period_witness :
  exists s w' place,
    returns (summarizer_agent week_request demo_search demo_budget)
            demo_world s w' /\
    In place (SearchResult.places demo_search) /\
    nth_error (Summary.itinerary s) (Z.to_nat 1)
    = Some ("Day " ++ str_int (1 + 1) ++ ": " ++ place) /\
    nth_error (Summary.itinerary s)
              (Z.to_nat (1 + len (SearchResult.places demo_search)))
    = Some ("Day " ++ str_int (1 + len (SearchResult.places demo_search) + 1)
            ++ ": " ++ place).
Proof.
  apply (summarizer_itinerary_period week_request demo_search demo_budget
           demo_world 1).
  - simpl; discriminate.
  - lia.
  - vm_compute; reflexivity.
Defined.

(** ** What a run of the pipeline returns *)

Lemma cheapest_pair (a b : Z) : cheapest [a; b] = Z.min a b.
Proof. reflexivity. Qed.

Lemma place_of_day_numbered (q : string) (d : Z) :
  place_of_day (map (fun i => q ++ " - " ++ i) ["1"; "2"; "3"; "4"; "5"]) d
  = q ++ " - " ++ str_int (d mod 5 + 1).
Proof.
  unfold place_of_day. cbn [map]. change (len _) with 5.
  pose proof (Z.mod_pos_bound d 5 ltac:(reflexivity)) as Hm.
  assert (C : d mod 5 = 0 \/ d mod 5 = 1 \/ d mod 5 = 2 \/ d mod 5 = 3
              \/ d mod 5 = 4) by lia.
  destruct C as [E|[E|[E|[E|E]]]]; rewrite E; reflexivity.
Qed.

(** X7: the itinerary of a plan is fixed by the destination and the days of
    the request alone: entry [d] (0-indexed) reads
    ["Day {d+1}: top attractions in {to_city} - {d mod 5 + 1}"], whatever the
    generator draws. *)
Theorem create_plan_itinerary_text (req : PlanRequest.t) (w : World) :
  exists resp w',
    returns (create_plan req) w resp w' /\
    Summary.itinerary (Response.summary resp)
    = map (fun d => "Day " ++ str_int (d + 1) ++ ": top attractions in "
                    ++ PlanRequest.to_city req ++ " - "
                    ++ str_int (d mod 5 + 1))
          (py_range (PlanRequest.days req)).
Proof.
  eexists; eexists. split; [apply create_plan_run|].
  cbv zeta. unfold summary_result, search_result. cbv zeta.
  cbn [Response.summary Summary.itinerary SearchResult.places planner_tasks
       Tasks.places_query].
  apply map_ext. intros d. unfold entry_text.
  rewrite place_of_day_numbered. reflexivity.
Qed.

(** X8: the budget of a plan charges the cheaper of the two flights and the
    cheaper of the two hotels, so for [D = max(1, days)] the total lies
    between [4000 + 1450 * D] and [12000 + 3150 * D].  A budget below 5450
    is therefore always exceeded, and a budget of at least
    [12000 + 3150 * D] always suffices. *)
Theorem create_plan_total_bounds (req : PlanRequest.t) (w : World) :
  exists resp w',
    returns (create_plan req) w resp w' /\
    let b := Summary.budget (Response.summary resp) in
    let D := Z.max 1 (PlanRequest.days req) in
    4000 + 1450 * D <= BudgetResult.total b <= 12000 + 3150 * D /\
    (PlanRequest.budget req < 5450 -> BudgetResult.status b = "over_budget") /\
    (12000 + 3150 * D <= PlanRequest.budget req ->
     BudgetResult.status b = "within_budget").
Proof.
  eexists; eexists. split; [apply create_plan_run|].
  cbv zeta. unfold summary_result, budget_result, search_result. cbv zeta.
  cbn [Response.summary Summary.budget BudgetResult.total BudgetResult.status
       SearchResult.flights SearchResult.hotels map Flight.price
       Hotel.price_per_night].
  rewrite !cheapest_pair.
  set (D := Z.max 1 (PlanRequest.days req)).
  set (e := entropy _).
  pose proof (Z.mod_pos_bound (e (0 + drawn w)%nat) 8001 ltac:(reflexivity)).
  pose proof (Z.mod_pos_bound (e (1 + drawn w)%nat) 9501 ltac:(reflexivity)).
  pose proof (Z.mod_pos_bound (e (2 + drawn w)%nat) 1701 ltac:(reflexivity)).
  pose proof (Z.mod_pos_bound (e (4 + drawn w)%nat) 2501 ltac:(reflexivity)).
  cbn [after_agent after_search after_plan_counted drawn] in *.
  set (f := Z.min _ _) in *. set (h := Z.min (800 + _) _) in *.
  assert (Hf : 4000 <= f <= 12000) by (unfold f; lia).
  assert (Hh : 800 <= h <= 2500) by (unfold h; lia).
  assert (HD : 1 <= D) by (unfold D; lia).
  clearbody f h D.
  assert (Hb : 4000 + 1450 * D <= f + h * D + 400 * D + 250 * D
               <= 12000 + 3150 * D) by nia.
  split; [exact Hb|]. split; intros Hlt.
  - destruct (Z.leb_spec (f + h * D + 400 * D + 250 * D) (PlanRequest.budget req));
      [lia | reflexivity].
  - destruct (Z.leb_spec (f + h * D + 400 * D + 250 * D) (PlanRequest.budget req));
      [reflexivity | lia].
Qed.

(** X9: a run of the pipeline logs exactly four records, one per stage, in
    the order planner, search, budget, summarizer; it consumes six draws of
    the generator and one identifier, which becomes the plan id, and stamps
    the response with the clock, which it leaves alone. *)
Theorem create_plan_effects (req : PlanRequest.t) (w : World) :
  exists resp w',
    returns (create_plan req) w resp w' /\
    logged w'
    = (logged w
       ++ [ ("[Planner] Creating tasks for trip " ++ PlanRequest.from_city req
             ++ " -> " ++ PlanRequest.to_city req)%string;
            "[Search] Running fake searches for tasks";
            "[Budget] Calculating budget";
            "[Summarizer] Creating final plan summary" ])%list /\
    drawn w' = (6 + drawn w)%nat /\
    issued w' = S (issued w) /\
    Summary.plan_id (Response.summary resp) = uuids w (issued w) /\
    Response.generated_at resp = clock w /\
    entropy w' = entropy w /\ uuids w' = uuids w /\ clock w' = clock w.
Proof.
  eexists; eexists. split; [apply create_plan_run|].
  cbv zeta. unfold summary_result.
  cbn [after_summarizer after_agent after_search after_plan_counted logged
       drawn issued entropy uuids clock Response.summary Summary.plan_id
       Response.generated_at].
  rewrite <- !app_assoc. repeat split.
Qed.

(** X10: the parts of a response agree with each other: the summary carries
    the cities of the request and the very flights, hotels and budget found
    under [raw]; the planner's tasks under [raw] are the three queries for
    the request; the budget's flight and hotel components are the least
    prices among the flights and hotels returned; and [metrics] shows the
    counters as the run leaves them. *)
Theorem create_plan_response_consistent (req : PlanRequest.t) (w : World) :
  exists resp w',
    returns (create_plan req) w resp w' /\
    let s := Response.summary resp in
    let r := Response.raw resp in
    let b := BudgetResult.breakdown (Summary.budget s) in
    Summary.from s = PlanRequest.from_city req /\
    Summary.to s = PlanRequest.to_city req /\
    Summary.flights s = SearchResult.flights (Raw.search r) /\
    Summary.hotels s = SearchResult.hotels (Raw.search r) /\
    Summary.budget s = Raw.budget r /\
    PlannerResult.tasks (Raw.planner r)
    = Tasks.mk ("cheap flights from " ++ PlanRequest.from_city req ++ " to "
                                      ++ PlanRequest.to_city req)
               ("budget hotels in " ++ PlanRequest.to_city req)
               ("top attractions in " ++ PlanRequest.to_city req) /\
    is_minimum (map Flight.price (Summary.flights s)) (Breakdown.flight b) /\
    is_minimum (map Hotel.price_per_night (Summary.hotels s))
               (Breakdown.hotel_per_night b) /\
    Response.metrics resp = METRICS w'.
Proof.
  eexists; eexists. split; [apply create_plan_run|].
  cbv zeta. unfold summary_result, budget_result. cbv zeta.
  cbn [Response.summary Response.raw Response.metrics Raw.search Raw.budget
       Raw.planner PlannerResult.tasks Summary.from Summary.to Summary.flights
       Summary.hotels Summary.budget BudgetResult.breakdown Breakdown.flight
       Breakdown.hotel_per_night].
  do 6 (split; [reflexivity|]).
  split; [apply cheapest_map_is_minimum; discriminate|].
  split; [apply cheapest_map_is_minimum; discriminate|].
  reflexivity.
Qed.

(** ** Requests served in sequence, and the health endpoint *)

Lemma health_run (w : World) :
  health w = (w, inr (Health.mk "ok" (METRICS w))).
Proof. reflexivity. Qed.

Lemma serve_loop (reqs : list PlanRequest.t) (served : list Response.t)
    (w : World) :
  exists resps w',
    Py.for_in reqs
      (fun req served =>
         resp <- create_plan req ;; Py.ret (served ++ [resp])%list)
      served w
    = (w', inr resps) /\
    len resps = len served + len reqs /\
    METRICS w' = mkMetrics (plans_created (METRICS w) + len reqs)
                           (agent_calls (METRICS w) + 4 * len reqs).
Proof.
  revert served w. induction reqs as [|req reqs IH]; intros served w.
  - exists served, w. split; [reflexivity|]. unfold len. simpl.
    split; [lia|]. destruct (METRICS w); simpl; f_equal; lia.
  - cbn [Py.for_in].
    unfold Py.bind at 1 2. rewrite create_plan_run. cbv zeta.
    unfold Py.ret at 1.
    match goal with
    | |- context [Py.for_in reqs _ ?acc ?w1] =>
        destruct (IH acc w1) as (resps & w' & Hrun & Hlen & Hm)
    end.
    exists resps, w'. split; [exact Hrun|].
    cbn [after_summarizer after_agent after_search after_plan_counted METRICS
         plans_created agent_calls] in Hm.
    unfold len in *. rewrite length_app in Hlen. cbn [List.length] in *.
    split; [lia|]. rewrite Hm; f_equal; lia.
Qed.

(** X11: after any number of requests served one after the other, the
    health endpoint answers ["ok"] and reports one more plan and four more
    agent calls per request served, without changing the counters itself;
    so [agent_calls - 4 * plans_created] never changes, and a process that
    started from zero always shows [agent_calls = 4 * plans_created]. *)
Theorem serve_then_health (reqs : list PlanRequest.t) (w : World) :
  exists resps h w',
    returns (resps <- serve reqs ;; h <- health ;; Py.ret (resps, h))
            w (resps, h) w' /\
    len resps = len reqs /\
    Health.status h = "ok" /\
    Health.metrics h = METRICS w' /\
    plans_created (Health.metrics h) = plans_created (METRICS w) + len reqs /\
    agent_calls (Health.metrics h) = agent_calls (METRICS w) + 4 * len reqs /\
    agent_calls (Health.metrics h) - 4 * plans_created (Health.metrics h)
    = agent_calls (METRICS w) - 4 * plans_created (METRICS w).
Proof.
  destruct (serve_loop reqs [] w) as (resps & w' & Hrun & Hlen & Hm).
  exists resps, (Health.mk "ok" (METRICS w')), w'.
  split.
  - unfold returns, serve.
    rewrite (bind_returns _ _ w resps w' Hrun).
    rewrite (bind_returns _ _ w' _ w' (health_run w')). reflexivity.
  - cbn [Health.status Health.metrics]. rewrite Hm.
    cbn [plans_created agent_calls]. unfold len in *. simpl in Hlen.
    repeat split; lia.
Qed.

(** Three requests served by a fresh process: the health endpoint reports
    3 plans and 12 agent calls. *)
Example serve_three_then_health :
  snd ((resps <- serve [demo_request; zero_days_request; week_request] ;;
        health) demo_world)
  = inr (Health.mk "ok" (mkMetrics 3 12)).
Proof. vm_compute. reflexivity. Qed.
